(** * fracdiff.stat: stationarity testers

    A shallow embedding of [src/fracdiff/stat.py] (classes [StatTester] and
    [StrictStatTester]) and the properties of its decision logic.

    Modelling choices
    - a Python [float] / numpy [float64] is an IEEE 754 binary64 value,
      modelled by [spec_float] with the comparison [SFcompare]; a comparison
      with a NaN operand is false, as in Python;
    - the module [statsmodels.tsa.stattools] is not part of the repository:
      its two routines are the fields of a record [Stattools], functions from
      their arguments to either a result tuple or a raised exception;
    - the error message is an f-string over [self.method]: formatting can
      itself raise, which it does for an [int] beyond the interpreter's
      limit of 4300 decimal digits ([str_of_int]);
    - a method body runs in the monad [M]: it returns a value or raises, and
      it leaves the trace of its observable events (calls to the
      collaborators and lines printed), so that what was called, how often
      and in which order can be stated. *)

From Stdlib Require Import ZArith List String Bool Lia.
From Stdlib Require Import Floats.SpecFloat.
Import ListNotations.

Local Open Scope string_scope.
Local Open Scope Z_scope.

(** ** Exceptions *)

Record exn : Type := mk_exn { exn_class : string; exn_msg : string }.

Inductive result (A : Type) : Type :=
| Ok (a : A)
| Raise (e : exn).
Arguments Ok {A} a.
Arguments Raise {A} e.

(** ** Python values *)

(** Values a caller can pass as [method]; [self.method] is compared with
    string literals and formatted into the error message. *)
Inductive pyval : Type :=
| PyNone
| PyBool (b : bool)
| PyInt (z : Z)
| PyStr (s : string).

(** [v == "lit"]: a value that is not a [str] is never equal to a string
    literal. *)
Definition py_eq_str (v : pyval) (lit : string) : bool :=
  match v with
  | PyStr s => String.eqb s lit
  | _ => false
  end.

Definition digit_char (d : Z) : string :=
  match d with
  | 0 => "0" | 1 => "1" | 2 => "2" | 3 => "3" | 4 => "4"
  | 5 => "5" | 6 => "6" | 7 => "7" | 8 => "8" | _ => "9"
  end.

Fixpoint decimal_digits (fuel : nat) (n : Z) (acc : string) : string :=
  match fuel with
  | O => acc
  | S fuel' =>
      let acc' := digit_char (n mod 10) ++ acc in
      if n / 10 =? 0 then acc' else decimal_digits fuel' (n / 10) acc'
  end.

(** The decimal digits of [abs(z)]. *)
Definition int_digits (z : Z) : string :=
  decimal_digits (S (Z.to_nat (Z.log2 (Z.abs z)))) (Z.abs z) "".

(** The interpreter's limit on the conversion of an [int] to a [str],
    [sys.int_info.default_max_str_digits], and the error raised beyond
    it. *)
Definition int_max_str_digits : Z := 4300.

Definition int_str_limit_error : exn :=
  mk_exn "ValueError"
    ("Exceeds the limit (4300 digits) for integer string conversion; "
     ++ "use sys.set_int_max_str_digits() to increase the limit").

(** [str(z)] for an [int]: the conversion raises [ValueError] when [z] has
    more than [int_max_str_digits] decimal digits, the sign not counted. *)
Definition str_of_int (z : Z) : result string :=
  let body := int_digits z in
  if int_max_str_digits <? Z.of_nat (String.length body)
  then Raise int_str_limit_error
  else Ok (if z <? 0 then "-" ++ body else body).

(** [format(v, '')], what an f-string replacement field [{v}] produces, or
    the exception the conversion raises. *)
Definition py_str (v : pyval) : result string :=
  match v with
  | PyNone => Ok "None"
  | PyBool true => Ok "True"
  | PyBool false => Ok "False"
  | PyInt z => str_of_int z
  | PyStr s => Ok s
  end.

(** ** Floats *)

Definition float : Type := spec_float.

(** A time series: [x : array, shape (n_samples,)]. *)
Definition series : Type := list float.

(** [a < b] and [a >= b] on floats. *)
Definition float_lt (a b : float) : bool :=
  match SFcompare a b with
  | Some Lt => true
  | _ => false
  end.

Definition float_ge (a b : float) : bool :=
  match SFcompare a b with
  | Some Gt | Some Eq => true
  | _ => false
  end.

(** [a <= b] and [a == b], used to state the properties. *)
Definition float_le (a b : float) : bool :=
  match SFcompare a b with
  | Some Lt | Some Eq => true
  | _ => false
  end.

Definition float_eq (a b : float) : bool :=
  match SFcompare a b with
  | Some Eq => true
  | _ => false
  end.

(** The value is a binary64 number (53 bits of precision, [emax = 1024]). *)
Definition is_binary64 (a : float) : bool := valid_binary 53 1024 a.

(** The normal binary64 number [2^k]. *)
Definition pow2 (k : Z) : float :=
  S754_finite false 4503599627370496 (k - 52).

(** The literal [0.05]: the binary64 number nearest to 1/20,
    [7205759403792794 * 2^-57]. *)
Definition float_0_05 : float := S754_finite false 7205759403792794 (-57).

(** ** Events and the monad of method bodies *)

(** The [nlags] argument of [stattools.kpss]. *)
Inductive nlags_arg : Type :=
| NlagsStr (s : string)
| NlagsInt (n : Z).

Inductive event : Type :=
| EvAdfuller (x : series)
| EvKpss (x : series) (nlags : nlags_arg)
| EvPrint (line : string).

Definition trace : Type := list event.

Definition M (A : Type) : Type := (trace * result A)%type.

Definition ret {A} (a : A) : M A := ([], Ok a).

Definition raise {A} (e : exn) : M A := ([], Raise e).

Definition bind {A B} (m : M A) (k : A -> M B) : M B :=
  match m with
  | (tr, Ok a) => let (tr', r) := k a in ((tr ++ tr')%list, r)
  | (tr, Raise e) => (tr, Raise e)
  end.

(** [print(line)] *)
Definition print (line : string) : M unit := ([EvPrint line], Ok tt).

(** [pass] *)
Definition pass : M unit := ret tt.

Declare Scope py_scope.
Delimit Scope py_scope with py.
Notation "x <- m ;; k" := (bind m (fun x => k))
  (at level 61, m at next level, right associativity) : py_scope.
Notation "m ;; k" := (bind m (fun _ => k))
  (at level 61, right associativity) : py_scope.
Local Open Scope py_scope.

(** What a run returned or raised, its events, and what it printed. *)
Definition outcome {A} (m : M A) : result A := snd m.

Definition events {A} (m : M A) : trace := fst m.

Fixpoint printed (tr : trace) : list string :=
  match tr with
  | [] => []
  | EvPrint line :: tr' => line :: printed tr'
  | _ :: tr' => printed tr'
  end.

Fixpoint collaborator_calls (tr : trace) : trace :=
  match tr with
  | [] => []
  | EvPrint _ :: tr' => collaborator_calls tr'
  | ev :: tr' => ev :: collaborator_calls tr'
  end.

(** ** The collaborators: [import statsmodels.tsa.stattools as stattools] *)

Definition crit_values : Type := list (string * float).

(** [stattools.adfuller(x)] with its default arguments returns
    [(adfstat, pvalue, usedlag, nobs, critvalues, icbest)], or raises. *)
Definition adf_result : Type :=
  (float * float * Z * Z * crit_values * float)%type.

(** [stattools.kpss(x, nlags=...)] returns
    [(kpss_stat, p_value, lags, crit)], or raises. *)
Definition kpss_result : Type := (float * float * Z * crit_values)%type.

Record Stattools : Type := mk_Stattools {
  adfuller : series -> result adf_result;
  kpss : series -> nlags_arg -> result kpss_result
}.

Definition call_adfuller (st : Stattools) (x : series) : M adf_result :=
  ([EvAdfuller x], adfuller st x).

Definition call_kpss (st : Stattools) (x : series) (nlags : nlags_arg)
  : M kpss_result :=
  ([EvKpss x nlags], kpss st x nlags).

(** ** class StatTester *)

Module StatTester.

Record t : Type := mk { method : pyval }.

(** [def __init__(self, method="ADF")]; [None] is the omitted argument. *)
Definition default_method : pyval := PyStr "ADF".

Definition __init__ (method : option pyval) : M t :=
  let method :=
    match method with
    | Some v => v
    | None => default_method
    end in
  ret (mk method).

(** [Exception(f'Unknown method {self.method}')], where [s] is the text of
    the method. *)
Definition UnknownMethod (s : string) : exn :=
  mk_exn "Exception" ("Unknown method " ++ s).

(** [raise Exception(f'Unknown method {self.method}')]: the f-string is
    evaluated first, and when formatting the method raises, that exception
    is the one raised. *)
Definition raise_unknown_method {A : Type} (m : pyval) : M A :=
  match py_str m with
  | Ok s => raise (UnknownMethod s)
  | Raise e => raise e
  end.

(** [@property def null_hypothesis(self) -> str] *)
Definition null_hypothesis (self : t) : M string :=
  if py_eq_str (method self) "ADF" then ret "unit-root"
  else if py_eq_str (method self) "KPSS" then ret "trend-stationary"
  else raise_unknown_method (method self).

Section WithStattools.

Variable stattools : Stattools.

(** [def pvalue(self, x) -> float] *)
Definition pvalue (self : t) (x : series) : M float :=
  if py_eq_str (method self) "ADF" then
    r <- call_adfuller stattools x ;;
    let '(_, pvalue, _, _, _, _) := r in
    ret pvalue
  else if py_eq_str (method self) "KPSS" then
    r <- call_kpss stattools x (NlagsStr "auto") ;;
    let '(_, pvalue, _, _) := r in
    ret pvalue
  else raise_unknown_method (method self).

(** [def is_stat(self, x, pvalue=0.05) -> bool]; the parameter named
    [pvalue] in the source is the threshold. *)
Definition default_pvalue : float := float_0_05.

Definition is_stat (self : t) (x : series) (threshold : float) : M bool :=
  h <- null_hypothesis self ;;
  if String.eqb h "unit-root" then
    p <- pvalue self x ;;
    ret (float_lt p threshold)
  else
    h' <- null_hypothesis self ;;
    if String.eqb h' "trend-stationary" then
      p <- pvalue self x ;;
      ret (float_ge p threshold)
    else raise_unknown_method (method self).

End WithStattools.

End StatTester.

(** ** class StrictStatTester *)

(** The four cases of the [if]/[elif] chain of [StrictStatTester.is_stat],
    in the order of the source (Case 1 to Case 4). *)
Inductive OutcomeClass : Type :=
| BothNonStationary
| BothStationary
| TrendStationaryOnly
| DifferenceStationary.

Module StrictStatTester.

Record t : Type := mk { adf_test : StatTester.t; kpss_test : StatTester.t }.

(** [def __init__(self)] *)
Definition __init__ : M t :=
  a <- StatTester.__init__ (Some (PyStr "ADF")) ;;
  k <- StatTester.__init__ (Some (PyStr "KPSS")) ;;
  ret (mk a k).

(** [@property def null_hypothesis(self) -> str] *)
Definition null_hypothesis (self : t) : M string :=
  ret "unit-root and not trend-stationary".

(** The guard of each case, as written in the source. *)
Definition guard (c : OutcomeClass) (t1 t2 : bool) : bool :=
  match c with
  | BothNonStationary => negb t1 && negb t2
  | BothStationary => t1 && t2
  | TrendStationaryOnly => negb t1 && t2
  | DifferenceStationary => t1 && negb t2
  end.

(** The chain takes the first case whose guard holds; it has no [else]. *)
Definition select_case (t1 t2 : bool) : option OutcomeClass :=
  if guard BothNonStationary t1 t2 then Some BothNonStationary
  else if guard BothStationary t1 t2 then Some BothStationary
  else if guard TrendStationaryOnly t1 t2 then Some TrendStationaryOnly
  else if guard DifferenceStationary t1 t2 then Some DifferenceStationary
  else None.

Definition msg_detrend : string :=
  "Trend needs to be removed to make series strict stationary".

Definition msg_difference : string := "Series is difference stationary".

(** The body of each case. *)
Definition case_body (c : OutcomeClass) (verbose : Z) : M unit :=
  match c with
  | BothNonStationary => pass
  | BothStationary => pass
  | TrendStationaryOnly =>
      (if verbose >? 0 then print msg_detrend else ret tt) ;;
      pass
  | DifferenceStationary =>
      (if verbose >? 0 then print msg_difference else ret tt) ;;
      pass
  end.

Section WithStattools.

Variable stattools : Stattools.

(** [def is_stat(self, x, pvalue=0.05, verbose=1) -> bool] *)
Definition default_pvalue : float := float_0_05.

Definition default_verbose : Z := 1.

Definition is_stat (self : t) (x : series) (threshold : float) (verbose : Z)
  : M bool :=
  t1 <- StatTester.is_stat stattools (adf_test self) x threshold ;;
  t2 <- StatTester.is_stat stattools (kpss_test self) x threshold ;;
  match select_case t1 t2 with
  | Some c => case_body c verbose
  | None => ret tt
  end ;;
  ret (t1 && t2).

End WithStattools.

End StrictStatTester.

(** ** Whole calls: construct a tester, then invoke one operation *)

Definition ADF : pyval := PyStr "ADF".

Definition KPSS : pyval := PyStr "KPSS".

(** [StatTester(method).null_hypothesis] *)
Definition run_null_hypothesis (method : option pyval) : M string :=
  self <- StatTester.__init__ method ;;
  StatTester.null_hypothesis self.

(** [StatTester(method).pvalue(x)] *)
Definition run_pvalue (st : Stattools) (method : option pyval) (x : series)
  : M float :=
  self <- StatTester.__init__ method ;;
  StatTester.pvalue st self x.

(** [StatTester(method).is_stat(x, threshold)] *)
Definition run_is_stat (st : Stattools) (method : option pyval) (x : series)
  (threshold : float) : M bool :=
  self <- StatTester.__init__ method ;;
  StatTester.is_stat st self x threshold.

(** [StrictStatTester().is_stat(x, threshold, verbose)] *)
Definition run_strict_is_stat (st : Stattools) (x : series)
  (threshold : float) (verbose : Z) : M bool :=
  self <- StrictStatTester.__init__ ;;
  StrictStatTester.is_stat st self x threshold verbose.

(** ** The truth table of the specification (section 4.2)

    Written from the specification's table, to be compared with
    [StrictStatTester.select_case]. *)
Definition spec_outcome_class (unitRootVerdict trendStationaryVerdict : bool)
  : OutcomeClass :=
  match unitRootVerdict, trendStationaryVerdict with
  | false, false => BothNonStationary
  | true, true => BothStationary
  | false, true => TrendStationaryOnly
  | true, false => DifferenceStationary
  end.

(** The diagnostic the specification attaches to each class. *)
Definition spec_diagnostic (c : OutcomeClass) : list string :=
  match c with
  | TrendStationaryOnly => [StrictStatTester.msg_detrend]
  | DifferenceStationary => [StrictStatTester.msg_difference]
  | BothNonStationary | BothStationary => []
  end.

(** ** Monotonicity in the threshold, in the specification's words

    "Both verdicts are monotone non-decreasing in threshold": raising the
    threshold never turns a verdict [True] into [False]. *)
Definition verdict_nondecreasing (st : Stattools) (m : pyval) : Prop :=
  forall (x : series) (t t' : float),
    float_le t t' = true ->
    outcome (run_is_stat st (Some m) x t) = Ok true ->
    outcome (run_is_stat st (Some m) x t') = Ok true.

(** ** Collaborators used in the examples *)

(** Both routines succeed, with the given p-values. *)
Definition const_stattools (p_adf p_kpss : float) : Stattools :=
  mk_Stattools
    (fun _ => Ok (pow2 0, p_adf, 0, 100, [], pow2 0))
    (fun _ _ => Ok (pow2 (-1), p_kpss, 4, [])).

(** [ValueError]s, as raised on degenerate input. *)
Definition adf_failure : exn :=
  mk_exn "ValueError" "Invalid input, x is constant".

Definition kpss_failure : exn :=
  mk_exn "ValueError" "lags must be < number of observations".

Definition failing_stattools (adf_ok kpss_ok : bool) : Stattools :=
  mk_Stattools
    (fun _ => if adf_ok then Ok (pow2 0, pow2 (-6), 0, 100, [], pow2 0)
              else Raise adf_failure)
    (fun _ _ => if kpss_ok then Ok (pow2 (-1), pow2 (-4), 4, [])
                else Raise kpss_failure).

Definition sample_series : series := [pow2 0; pow2 1; pow2 0; pow2 (-1)].

(** ** Values used to state the edge cases *)

Definition float_is_nan (a : float) : bool :=
  match a with
  | S754_nan => true
  | _ => false
  end.

(** The literals [0.0] and [1.0]. *)
Definition float_zero : float := S754_zero false.

Definition float_one : float := pow2 0.

(** [0.0 <= p <= 1.0]: what a p-value is when the collaborator returns a
    probability. *)
Definition is_probability (p : float) : bool :=
  float_le float_zero p && float_le p float_one.

(** [StrictStatTester().null_hypothesis] *)
Definition run_strict_null_hypothesis : M string :=
  self <- StrictStatTester.__init__ ;;
  StrictStatTester.null_hypothesis self.

(** * Properties *)

(** ** Float comparisons *)

Ltac float_cases :=
  repeat match goal with
         | s : bool |- _ => destruct s
         | a : float |- _ => destruct a
         | a : spec_float |- _ => destruct a
         end;
  cbn.

Ltac order_cases :=
  repeat match goal with
         | |- context [Z.compare ?a ?b] => destruct (Z.compare_spec a b)
         | |- context [Pos.compare_cont Eq ?a ?b] =>
             change (Pos.compare_cont Eq a b) with (Pos.compare a b);
             destruct (Pos.compare_spec a b)
         end;
  cbn; try lia; try congruence.

(** [<] followed by [<=] is [<]: the order of [SFcompare] is lexicographic
    on sign, exponent and mantissa. *)
Lemma float_lt_le_trans (a b c : float) :
  float_lt a b = true -> float_le b c = true -> float_lt a c = true.
Proof.
  unfold float_lt, float_le; float_cases; try congruence; order_cases.
Qed.

(** When [p >= t] fails and [t <= t'], then [p >= t'] fails too (with a
    NaN [p] both comparisons are false). *)
Lemma float_ge_false_le (p t t' : float) :
  float_ge p t = false -> float_le t t' = true -> float_ge p t' = false.
Proof.
  unfold float_ge, float_le; float_cases; try congruence; order_cases.
Qed.

Lemma float_ge_true_le (p t t' : float) :
  float_ge p t' = true -> float_le t t' = true -> float_ge p t = true.
Proof.
  intros Hge Hle. destruct (float_ge p t) eqn:E; [reflexivity|].
  rewrite (float_ge_false_le _ _ _ E Hle) in Hge. discriminate.
Qed.

(** At equality [<] is false and [>=] is true. *)
Lemma float_eq_boundary (p t : float) :
  float_eq p t = true -> float_lt p t = false /\ float_ge p t = true.
Proof.
  unfold float_eq, float_lt, float_ge.
  destruct (SFcompare p t) as [[| |]|]; intros H; try discriminate H.
  split; reflexivity.
Qed.

(** The default threshold [0.05] is a binary64 number, within half a unit
    in the last place of 1/20: [|m * 20 - 2^57| <= 10] for its mantissa
    [m]. *)
Lemma default_pvalue_is_0_05 :
  is_binary64 StatTester.default_pvalue = true
  /\ StatTester.default_pvalue = StrictStatTester.default_pvalue
  /\ Z.abs (7205759403792794 * 20 - 2 ^ 57) <= 10.
Proof. repeat split; vm_compute; congruence. Qed.

(** ** Dispatch on the method *)

Lemma py_eq_str_true (v : pyval) (lit : string) :
  py_eq_str v lit = true <-> v = PyStr lit.
Proof.
  destruct v as [| b | z | s]; cbn; try (split; intros H; discriminate H).
  rewrite String.eqb_eq. split; intros H; [subst | injection H]; auto.
Qed.

Lemma py_eq_str_false (v : pyval) (lit : string) :
  v <> PyStr lit -> py_eq_str v lit = false.
Proof.
  intros H. destruct (py_eq_str v lit) eqn:E; [|reflexivity].
  apply py_eq_str_true in E. contradiction.
Qed.


(** The [raise] statement raises, and has no event: the unknown-method
    exception when the method can be formatted, the exception of the
    formatting otherwise. *)
Lemma raise_unknown_method_outcome {A : Type} (m : pyval) :
  @StatTester.raise_unknown_method A m
  = ([], Raise match py_str m with
               | Ok s => StatTester.UnknownMethod s
               | Raise e => e
               end).
Proof.
  unfold StatTester.raise_unknown_method.
  destruct (py_str m) as [s | e]; reflexivity.
Qed.








(** [is_stat] is [pvalue] followed by one comparison. *)
Lemma is_stat_ADF_unfold (st : Stattools) (x : series) (threshold : float) :
  run_is_stat st (Some ADF) x threshold
  = (p <- run_pvalue st (Some ADF) x ;; ret (float_lt p threshold)).
Proof.
  unfold run_is_stat, run_pvalue, StatTester.is_stat, StatTester.pvalue.
  cbn. destruct (adfuller st x) as [[[[[[s p] l] n] c] i] | e]; reflexivity.
Qed.

Lemma is_stat_KPSS_unfold (st : Stattools) (x : series) (threshold : float) :
  run_is_stat st (Some KPSS) x threshold
  = (p <- run_pvalue st (Some KPSS) x ;; ret (float_ge p threshold)).
Proof.
  unfold run_is_stat, run_pvalue, StatTester.is_stat, StatTester.pvalue.
  cbn. destruct (kpss st x (NlagsStr "auto")) as [[[[s p] l] c] | e];
    reflexivity.
Qed.

(** The outcome of [m ;; ret (f p)] when [m] returns [p]. *)
Lemma outcome_bind_ret {A B} (m : M A) (f : A -> B) (a : A) :
  outcome m = Ok a -> outcome (p <- m ;; ret (f p)) = Ok (f a).
Proof.
  destruct m as [tr [a' | e]]; cbn; intros H; [|discriminate H].
  injection H as ->. reflexivity.
Qed.

Lemma outcome_bind_ret_inv {A B} (m : M A) (f : A -> B) (b : B) :
  outcome (p <- m ;; ret (f p)) = Ok b ->
  exists a, outcome m = Ok a /\ b = f a.
Proof.
  destruct m as [tr [a | e]]; cbn; intros H; [|discriminate H].
  injection H as <-. exists a. split; reflexivity.
Qed.

(** ** StatTester *)

(** C2. For every series and threshold, the verdict of an "ADF" tester is
    [True] exactly when the computed p-value is strictly below the threshold,
    and the verdict of a "KPSS" tester is [True] exactly when the computed
    p-value is greater than or equal to the threshold; when the p-value
    equals the threshold, the KPSS verdict is [True] and the ADF verdict is
    [False]. *)
Theorem is_stat_directionality (st : Stattools) (x : series)
  (threshold : float) :
  (forall p : float,
      outcome (run_pvalue st (Some ADF) x) = Ok p ->
      outcome (run_is_stat st (Some ADF) x threshold)
      = Ok (float_lt p threshold)
      /\ (float_eq p threshold = true ->
          outcome (run_is_stat st (Some ADF) x threshold) = Ok false))
  /\ (forall p : float,
      outcome (run_pvalue st (Some KPSS) x) = Ok p ->
      outcome (run_is_stat st (Some KPSS) x threshold)
      = Ok (float_ge p threshold)
      /\ (float_eq p threshold = true ->
          outcome (run_is_stat st (Some KPSS) x threshold) = Ok true)).
Proof.
  split; intros p Hp.
  - rewrite is_stat_ADF_unfold.
    rewrite (outcome_bind_ret _ (fun q => float_lt q threshold) p Hp).
    split; [reflexivity|].
    intros Heq. apply float_eq_boundary in Heq as [-> _]. reflexivity.
  - rewrite is_stat_KPSS_unfold.
    rewrite (outcome_bind_ret _ (fun q => float_ge q threshold) p Hp).
    split; [reflexivity|].
    intros Heq. apply float_eq_boundary in Heq as [_ ->]. reflexivity.
Qed.

(** At p-value = threshold = 2^-5 the ADF verdict is [False] and the KPSS
    verdict is [True]. *)
Lemma is_stat_directionality_witness :
  outcome (run_is_stat (const_stattools (pow2 (-5)) (pow2 (-5))) (Some ADF)
             sample_series (pow2 (-5))) = Ok false
  /\ outcome (run_is_stat (const_stattools (pow2 (-5)) (pow2 (-5)))
                (Some KPSS) sample_series (pow2 (-5))) = Ok true.
Proof.
  destruct (is_stat_directionality (const_stattools (pow2 (-5)) (pow2 (-5)))
              sample_series (pow2 (-5))) as [Ha Hk].
  split.
  - apply (Ha (pow2 (-5))); reflexivity.
  - apply (Hk (pow2 (-5))); reflexivity.
Defined.

(** C3 (as stated, for the KPSS verdict). With a KPSS p-value of 2^-4,
    raising the threshold from 2^-5 to 2^-3 turns the verdict from [True]
    into [False]: the KPSS verdict is not non-decreasing in the threshold. *)
Lemma kpss_verdict_not_nondecreasing :
  is_binary64 (pow2 (-5)) = true /\ is_binary64 (pow2 (-3)) = true
  /\ float_le (pow2 (-5)) (pow2 (-3)) = true
  /\ outcome (run_is_stat (const_stattools (pow2 (-6)) (pow2 (-4)))
                (Some KPSS) sample_series (pow2 (-5))) = Ok true
  /\ outcome (run_is_stat (const_stattools (pow2 (-6)) (pow2 (-4)))
                (Some KPSS) sample_series (pow2 (-3))) = Ok false
  /\ ~ verdict_nondecreasing (const_stattools (pow2 (-6)) (pow2 (-4))) KPSS.
Proof.
  repeat (split; [reflexivity|]).
  intros H.
  specialize (H sample_series (pow2 (-5)) (pow2 (-3)) eq_refl eq_refl).
  discriminate H.
Qed.

(** C3 (amended). For a fixed series, raising the threshold cannot change an
    ADF verdict from [True] to [False] (the ADF verdict is non-decreasing in
    the threshold) and cannot change a KPSS verdict from [False] to [True]
    (the KPSS verdict is non-increasing in the threshold: a verdict that is
    [True] at the higher threshold is [True] at the lower one). *)
Theorem is_stat_threshold_monotone (st : Stattools) (x : series)
  (t t' : float) :
  float_le t t' = true ->
  (outcome (run_is_stat st (Some ADF) x t) = Ok true ->
   outcome (run_is_stat st (Some ADF) x t') = Ok true)
  /\ (outcome (run_is_stat st (Some KPSS) x t) = Ok false ->
      outcome (run_is_stat st (Some KPSS) x t') = Ok false)
  /\ (outcome (run_is_stat st (Some KPSS) x t') = Ok true ->
      outcome (run_is_stat st (Some KPSS) x t) = Ok true).
Proof.
  intros Hle. rewrite !is_stat_ADF_unfold, !is_stat_KPSS_unfold.
  repeat split; intros H;
    apply outcome_bind_ret_inv in H as [p [Hp Hv]]; symmetry in Hv.
  - rewrite (outcome_bind_ret _ (fun q => float_lt q t') p Hp).
    f_equal. exact (float_lt_le_trans _ _ _ Hv Hle).
  - rewrite (outcome_bind_ret _ (fun q => float_ge q t') p Hp).
    f_equal. exact (float_ge_false_le _ _ _ Hv Hle).
  - rewrite (outcome_bind_ret _ (fun q => float_ge q t) p Hp).
    f_equal. exact (float_ge_true_le _ _ _ Hv Hle).
Qed.

(** With p-values 2^-6 (ADF) and 2^-4 (KPSS): the ADF verdict stays [True]
    and the KPSS verdict stays [False] when the threshold goes from 2^-3 to
    2^-2. *)
Lemma is_stat_threshold_monotone_witness :
  float_le (pow2 (-3)) (pow2 (-2)) = true
  /\ outcome (run_is_stat (const_stattools (pow2 (-6)) (pow2 (-4)))
                (Some ADF) sample_series (pow2 (-2))) = Ok true
  /\ outcome (run_is_stat (const_stattools (pow2 (-6)) (pow2 (-4)))
                (Some KPSS) sample_series (pow2 (-2))) = Ok false.
Proof.
  destruct (is_stat_threshold_monotone
              (const_stattools (pow2 (-6)) (pow2 (-4))) sample_series
              (pow2 (-3)) (pow2 (-2)) eq_refl) as [Ha [Hk _]].
  split; [reflexivity|].
  split; [apply Ha | apply Hk]; reflexivity.
Defined.




(** C6. [null_hypothesis] takes no series and no threshold and is determined
    by the method alone: for any tester object it is the result for that
    object's method; it is "unit-root" for "ADF" and "trend-stationary" for
    "KPSS", two different strings, it returns nothing else (for any other
    method it raises), and it has no observable effect. *)
Theorem null_hypothesis_of_method :
  run_null_hypothesis (Some (PyStr "ADF")) = ret "unit-root"
  /\ run_null_hypothesis (Some (PyStr "KPSS")) = ret "trend-stationary"
  /\ "unit-root" <> "trend-stationary"
  /\ (forall self : StatTester.t,
         StatTester.null_hypothesis self
         = run_null_hypothesis (Some (StatTester.method self)))
  /\ (forall m : pyval,
         (m = PyStr "ADF"
          /\ outcome (run_null_hypothesis (Some m)) = Ok "unit-root")
         \/ (m = PyStr "KPSS"
             /\ outcome (run_null_hypothesis (Some m))
                = Ok "trend-stationary")
         \/ (m <> PyStr "ADF" /\ m <> PyStr "KPSS"
             /\ exists e : exn,
                 outcome (run_null_hypothesis (Some m)) = Raise e))
  /\ (forall m : pyval, events (run_null_hypothesis (Some m)) = []).
Proof.
  split; [reflexivity|]. split; [reflexivity|]. split; [discriminate|].
  split.
  { intros [m]. unfold run_null_hypothesis, StatTester.null_hypothesis.
    cbn. destruct (py_eq_str m "ADF"), (py_eq_str m "KPSS");
      rewrite ?raise_unknown_method_outcome; reflexivity. }
  split.
  - intros m. unfold run_null_hypothesis, StatTester.null_hypothesis. cbn.
    destruct (py_eq_str m "ADF") eqn:Ea.
    { left. apply py_eq_str_true in Ea. split; [exact Ea | reflexivity]. }
    destruct (py_eq_str m "KPSS") eqn:Ek.
    { right; left. apply py_eq_str_true in Ek.
      split; [exact Ek | reflexivity]. }
    right; right. split; [|split].
    + intros ->. discriminate Ea.
    + intros ->. discriminate Ek.
    + rewrite raise_unknown_method_outcome. eexists. reflexivity.
  - intros m. unfold run_null_hypothesis, StatTester.null_hypothesis. cbn.
    destruct (py_eq_str m "ADF"), (py_eq_str m "KPSS");
      rewrite ?raise_unknown_method_outcome; reflexivity.
Qed.

(** C9. Constructing a tester never fails, whatever the method: the
    constructor returns an object holding the given value as it is, with no
    observable effect; for a value that is not recognised, an exception is
    raised only by the later call of [null_hypothesis], [pvalue] or
    [is_stat], and it is the unknown-method exception whenever the method
    can be formatted into its message. *)
Theorem init_never_fails (st : Stattools) (m : pyval) (x : series)
  (threshold : float) :
  StatTester.__init__ (Some m) = ([], Ok (StatTester.mk m))
  /\ (m <> PyStr "ADF" -> m <> PyStr "KPSS" ->
      exists e : exn,
        outcome (StatTester.null_hypothesis (StatTester.mk m)) = Raise e
        /\ outcome (StatTester.pvalue st (StatTester.mk m) x) = Raise e
        /\ outcome (StatTester.is_stat st (StatTester.mk m) x threshold)
           = Raise e
        /\ (forall s : string,
               py_str m = Ok s -> e = StatTester.UnknownMethod s)).
Proof.
  split; [reflexivity|]. intros Ha Hk.
  apply py_eq_str_false in Ha. apply py_eq_str_false in Hk.
  unfold StatTester.is_stat, StatTester.pvalue, StatTester.null_hypothesis.
  cbn. rewrite Ha, Hk. cbn. rewrite !raise_unknown_method_outcome.
  eexists. repeat split. intros s Hs. rewrite Hs. reflexivity.
Qed.

(** [StatTester(42)] is constructed; its operations raise
    [Exception("Unknown method 42")]. *)
Lemma init_never_fails_witness :
  StatTester.__init__ (Some (PyInt 42)) = ([], Ok (StatTester.mk (PyInt 42)))
  /\ outcome (StatTester.null_hypothesis (StatTester.mk (PyInt 42)))
     = Raise (mk_exn "Exception" "Unknown method 42").
Proof.
  assert (Ha : PyInt 42 <> PyStr "ADF") by discriminate.
  assert (Hk : PyInt 42 <> PyStr "KPSS") by discriminate.
  destruct (init_never_fails (const_stattools (pow2 (-6)) (pow2 (-4)))
              (PyInt 42) sample_series float_0_05) as [Hi Hops].
  split; [exact Hi|].
  destruct (Hops Ha Hk) as [e [Hn [_ [_ He]]]].
  rewrite Hn. f_equal. apply (He "42"). reflexivity.
Defined.

(** C10. A tester constructed without a method is the tester constructed
    with "ADF": its null hypothesis is "unit-root", and its verdict is the
    ADF p-value compared with [<] against the threshold, as for the tester
    constructed with "ADF". *)
Theorem default_method_is_ADF (st : Stattools) (x : series)
  (threshold : float) :
  StatTester.__init__ None = StatTester.__init__ (Some (PyStr "ADF"))
  /\ run_null_hypothesis None = ret "unit-root"
  /\ run_pvalue st None x = run_pvalue st (Some (PyStr "ADF")) x
  /\ run_is_stat st None x threshold
     = (p <- run_pvalue st (Some (PyStr "ADF")) x ;;
        ret (float_lt p threshold))
  /\ run_is_stat st None x threshold
     = run_is_stat st (Some (PyStr "ADF")) x threshold.
Proof.
  repeat split; try reflexivity.
  exact (is_stat_ADF_unfold st x threshold).
Qed.

(** ** StrictStatTester *)

Ltac unfold_runs :=
  unfold run_strict_is_stat, run_is_stat, run_pvalue,
    StrictStatTester.is_stat, StatTester.is_stat, StatTester.pvalue,
    call_adfuller, call_kpss in *;
  cbn in *.

Ltac adf_cases st x :=
  destruct (adfuller st x) as [[[[[[? ?pa] ?] ?] ?] ?] | ?e] eqn:?Eadf;
  cbn in *.

Ltac kpss_cases st x :=
  destruct (kpss st x (NlagsStr "auto")) as [[[[? ?pk] ?] ?] | ?e] eqn:?Ekpss;
  cbn in *.

(** The guards of the chain are exclusive and exhaustive: on every verdict
    pair exactly one holds, the one of the specification's table. *)
Lemma guard_iff_spec (c : OutcomeClass) (t1 t2 : bool) :
  StrictStatTester.guard c t1 t2 = true <-> c = spec_outcome_class t1 t2.
Proof.
  destruct c, t1, t2; cbn; split; intros H; try reflexivity;
    discriminate H.
Qed.

Lemma select_case_spec (t1 t2 : bool) :
  StrictStatTester.select_case t1 t2 = Some (spec_outcome_class t1 t2).
Proof. destruct t1, t2; reflexivity. Qed.

(** C1. For every series and threshold on which the two sub-tests return
    verdicts [t1] (ADF) and [t2] (KPSS), [StrictStatTester.is_stat] returns
    [t1 and t2], which is [True] only in the BothStationary case; the case
    taken by the [if]/[elif] chain is the one of the specification's truth
    table, exactly one guard holds on every verdict pair (no overlap, no
    gap), and the run prints what the body of that case prints. *)
Theorem strict_is_stat_truth_table (st : Stattools) (x : series)
  (threshold : float) (verbose : Z) (t1 t2 : bool) :
  outcome (run_is_stat st (Some ADF) x threshold) = Ok t1 ->
  outcome (run_is_stat st (Some KPSS) x threshold) = Ok t2 ->
  outcome (run_strict_is_stat st x threshold verbose) = Ok (t1 && t2)
  /\ (t1 && t2 = true <-> spec_outcome_class t1 t2 = BothStationary)
  /\ StrictStatTester.select_case t1 t2 = Some (spec_outcome_class t1 t2)
  /\ (forall c : OutcomeClass,
         StrictStatTester.guard c t1 t2 = true
         <-> c = spec_outcome_class t1 t2)
  /\ printed (events (run_strict_is_stat st x threshold verbose))
     = printed (events (StrictStatTester.case_body
                          (spec_outcome_class t1 t2) verbose)).
Proof.
  intros H1 H2.
  split; [|split; [|split; [|split]]].
  - unfold_runs. adf_cases st x; [|discriminate H1].
    kpss_cases st x; [|discriminate H2].
    injection H1 as <-. injection H2 as <-.
    destruct (float_lt pa threshold), (float_ge pk threshold); cbn;
      try reflexivity; destruct (verbose >? 0); reflexivity.
  - destruct t1, t2; cbn; split; intros H; try reflexivity; discriminate H.
  - apply select_case_spec.
  - intros c. apply guard_iff_spec.
  - unfold_runs. adf_cases st x; [|discriminate H1].
    kpss_cases st x; [|discriminate H2].
    injection H1 as <-. injection H2 as <-.
    destruct (float_lt pa threshold), (float_ge pk threshold); cbn;
      try reflexivity; destruct (verbose >? 0); reflexivity.
Qed.

(** ADF p-value 2^-2 and KPSS p-value 2^-4 at threshold 0.05: the verdicts
    are [False] and [True], the result is [False]. *)
Lemma strict_is_stat_truth_table_witness :
  outcome (run_strict_is_stat (const_stattools (pow2 (-2)) (pow2 (-4)))
             sample_series float_0_05 1) = Ok false
  /\ StrictStatTester.select_case false true = Some TrendStationaryOnly.
Proof.
  destruct (strict_is_stat_truth_table
              (const_stattools (pow2 (-2)) (pow2 (-4))) sample_series
              float_0_05 1 false true eq_refl eq_refl) as [Hr [_ [Hc _]]].
  split; [exact Hr | exact Hc].
Defined.

(** C5. When the two sub-tests return verdicts [t1] and [t2], a message is
    printed if and only if the verdicts disagree and [verbose > 0]; nothing
    is printed when they agree; the message is the detrend message when ADF
    says [False] and KPSS says [True], the difference message when ADF says
    [True] and KPSS says [False], and the two messages differ. *)
Theorem strict_diagnostics (st : Stattools) (x : series) (threshold : float)
  (verbose : Z) (t1 t2 : bool) :
  outcome (run_is_stat st (Some ADF) x threshold) = Ok t1 ->
  outcome (run_is_stat st (Some KPSS) x threshold) = Ok t2 ->
  (printed (events (run_strict_is_stat st x threshold verbose)) <> []
   <-> verbose > 0
       /\ ((t1 = false /\ t2 = true) \/ (t1 = true /\ t2 = false)))
  /\ (t1 = t2 ->
      printed (events (run_strict_is_stat st x threshold verbose)) = [])
  /\ (t1 = false -> t2 = true -> verbose > 0 ->
      printed (events (run_strict_is_stat st x threshold verbose))
      = [StrictStatTester.msg_detrend])
  /\ (t1 = true -> t2 = false -> verbose > 0 ->
      printed (events (run_strict_is_stat st x threshold verbose))
      = [StrictStatTester.msg_difference])
  /\ printed (events (run_strict_is_stat st x threshold verbose))
     = (if verbose >? 0 then spec_diagnostic (spec_outcome_class t1 t2)
        else [])
  /\ StrictStatTester.msg_detrend <> StrictStatTester.msg_difference.
Proof.
  intros H1 H2.
  assert (Hp : printed (events (run_strict_is_stat st x threshold verbose))
               = (if verbose >? 0
                  then spec_diagnostic (spec_outcome_class t1 t2) else [])).
  { unfold_runs. adf_cases st x; [|discriminate H1].
    kpss_cases st x; [|discriminate H2].
    injection H1 as <-. injection H2 as <-.
    destruct (float_lt pa threshold), (float_ge pk threshold); cbn;
      destruct (verbose >? 0); reflexivity. }
  rewrite Hp. clear Hp H1 H2.
  destruct (Z.gtb_spec verbose 0) as [Hv | Hv]; destruct t1, t2; cbn;
    repeat split; intros; try reflexivity; try discriminate; try lia;
    intuition (discriminate || lia).
Qed.

(** ADF p-value 2^-6 and KPSS p-value 2^-6 at threshold 0.05 with
    [verbose = 1]: the verdicts are [True] and [False] and the difference
    message is printed. *)
Lemma strict_diagnostics_witness :
  printed (events (run_strict_is_stat
                     (const_stattools (pow2 (-6)) (pow2 (-6)))
                     sample_series float_0_05 1))
  = ["Series is difference stationary"].
Proof.
  destruct (strict_diagnostics (const_stattools (pow2 (-6)) (pow2 (-6)))
              sample_series float_0_05 1 true false eq_refl eq_refl)
    as [_ [_ [_ [Hd _]]]].
  apply Hd; [reflexivity | reflexivity | lia].
Defined.

(** C7. [pvalue] returns the second component of the tuple returned by the
    collaborator ([adfuller(x)] for "ADF", [kpss(x, nlags="auto")] for
    "KPSS"), after exactly one call. An exception raised by a collaborator
    is the exception raised by [StatTester.pvalue], [StatTester.is_stat] and
    [StrictStatTester.is_stat]: the collaborator is called once, nothing is
    called after the failure, nothing is printed and no value is
    returned. *)
Theorem collaborator_result_and_failure (st : Stattools) (x : series)
  (threshold : float) (verbose : Z) :
  (forall s p l n c i,
      adfuller st x = Ok (s, p, l, n, c, i) ->
      run_pvalue st (Some ADF) x = ([EvAdfuller x], Ok p))
  /\ (forall s p l c,
      kpss st x (NlagsStr "auto") = Ok (s, p, l, c) ->
      run_pvalue st (Some KPSS) x = ([EvKpss x (NlagsStr "auto")], Ok p))
  /\ (forall e,
      adfuller st x = Raise e ->
      run_pvalue st (Some ADF) x = ([EvAdfuller x], Raise e)
      /\ run_is_stat st (Some ADF) x threshold = ([EvAdfuller x], Raise e)
      /\ run_strict_is_stat st x threshold verbose
         = ([EvAdfuller x], Raise e))
  /\ (forall e,
      kpss st x (NlagsStr "auto") = Raise e ->
      run_pvalue st (Some KPSS) x
      = ([EvKpss x (NlagsStr "auto")], Raise e)
      /\ run_is_stat st (Some KPSS) x threshold
         = ([EvKpss x (NlagsStr "auto")], Raise e)
      /\ (forall r, adfuller st x = Ok r ->
          run_strict_is_stat st x threshold verbose
          = ([EvAdfuller x; EvKpss x (NlagsStr "auto")], Raise e))).
Proof.
  repeat split; intros; unfold_runs;
    repeat match goal with
           | H : adfuller st x = _ |- _ => rewrite H; clear H; cbn
           | H : kpss st x _ = _ |- _ => rewrite H; clear H; cbn
           end;
    try reflexivity.
  destruct r as [[[[[s p] l] n] c] i]. reflexivity.
Qed.

(** With collaborators failing on a degenerate series, the [ValueError] of
    [adfuller] leaves [StrictStatTester.is_stat] after the single call of
    [adfuller]; when only [kpss] fails, its [ValueError] does. *)
Lemma collaborator_result_and_failure_witness :
  run_strict_is_stat (failing_stattools false true) sample_series
    float_0_05 1
  = ([EvAdfuller sample_series], Raise adf_failure)
  /\ run_strict_is_stat (failing_stattools true false) sample_series
       float_0_05 1
     = ([EvAdfuller sample_series; EvKpss sample_series (NlagsStr "auto")],
        Raise kpss_failure)
  /\ run_pvalue (failing_stattools true true) (Some ADF) sample_series
     = ([EvAdfuller sample_series], Ok (pow2 (-6))).
Proof.
  split; [|split].
  - destruct (collaborator_result_and_failure (failing_stattools false true)
                sample_series float_0_05 1) as [_ [_ [Ha _]]].
    apply (Ha adf_failure). reflexivity.
  - destruct (collaborator_result_and_failure (failing_stattools true false)
                sample_series float_0_05 1) as [_ [_ [_ Hk]]].
    destruct (Hk kpss_failure eq_refl) as [_ [_ Hs]].
    apply (Hs (pow2 0, pow2 (-6), 0, 100, [], pow2 0)). reflexivity.
  - destruct (collaborator_result_and_failure (failing_stattools true true)
                sample_series float_0_05 1) as [Hp _].
    apply (Hp (pow2 0) (pow2 (-6)) 0 100 [] (pow2 0)). reflexivity.
Defined.

(** C8. The value returned (or the exception raised) by
    [StrictStatTester.is_stat] does not depend on [verbose]: two runs on the
    same series and threshold that differ only in [verbose] have the same
    outcome and make the same collaborator calls; they differ at most in the
    lines printed. *)
Theorem strict_verbose_independent (st : Stattools) (x : series)
  (threshold : float) (verbose verbose' : Z) :
  outcome (run_strict_is_stat st x threshold verbose)
  = outcome (run_strict_is_stat st x threshold verbose')
  /\ collaborator_calls (events (run_strict_is_stat st x threshold verbose))
     = collaborator_calls
         (events (run_strict_is_stat st x threshold verbose'))
  /\ printed (events (run_strict_is_stat st x threshold 0)) = [].
Proof.
  unfold_runs. adf_cases st x; [|repeat split; reflexivity].
  kpss_cases st x; [|repeat split; reflexivity].
  destruct (float_lt pa threshold), (float_ge pk threshold); cbn;
    destruct (verbose >? 0), (verbose' >? 0); repeat split; reflexivity.
Qed.

(** * Further properties of the code *)

(** ** More on float comparisons *)

Lemma float_compare_flip (a b : float) :
  SFcompare b a = option_map CompOpp (SFcompare a b).
Proof. float_cases; try reflexivity; order_cases. Qed.

(** [p >= t] is [t <= p]. *)
Lemma float_ge_le (p t : float) : float_ge p t = float_le t p.
Proof.
  unfold float_ge, float_le. rewrite (float_compare_flip p t).
  destruct (SFcompare p t) as [[| |]|]; reflexivity.
Qed.

Lemma float_le_trans (a b c : float) :
  float_le a b = true -> float_le b c = true -> float_le a c = true.
Proof.
  unfold float_le; float_cases; try congruence; order_cases.
Qed.

Lemma float_le_lt_trans (a b c : float) :
  float_le a b = true -> float_lt b c = true -> float_lt a c = true.
Proof.
  unfold float_lt, float_le; float_cases; try congruence; order_cases.
Qed.

Lemma float_lt_not_ge (a b : float) :
  float_lt a b = true -> float_ge a b = false.
Proof.
  unfold float_lt, float_ge.
  destruct (SFcompare a b) as [[| |]|]; intros H; try discriminate H.
  reflexivity.
Qed.

(** A comparison with a NaN operand is false. *)
Lemma float_nan_compare (a b : float) :
  float_is_nan a = true \/ float_is_nan b = true ->
  float_lt a b = false /\ float_ge a b = false.
Proof.
  unfold float_lt, float_ge.
  intros [H | H]; destruct a, b; try discriminate H; split; reflexivity.
Qed.

(** Without NaN, [>=] is the negation of [<]. *)
Lemma float_ge_negb_lt (a b : float) :
  float_is_nan a = false -> float_is_nan b = false ->
  float_ge a b = negb (float_lt a b).
Proof.
  unfold float_lt, float_ge.
  destruct a, b; cbn; intros Ha Hb; try discriminate;
    try reflexivity;
    repeat match goal with s : bool |- _ => destruct s end;
    try reflexivity;
    match goal with
    | |- context [Z.compare ?x ?y] => destruct (Z.compare x y)
    end; try reflexivity;
    match goal with
    | |- context [Pos.compare_cont Eq ?x ?y] =>
        destruct (Pos.compare_cont Eq x y)
    end; reflexivity.
Qed.

Lemma float_ge_refl (a : float) :
  float_is_nan a = false -> float_ge a a = true.
Proof.
  unfold float_ge. destruct a as [s | s | | s m e]; cbn; intros H;
    try discriminate H; try (destruct s; reflexivity).
  rewrite Z.compare_refl.
  change (Pos.compare_cont Eq m m) with (Pos.compare m m).
  rewrite Pos.compare_refl. destruct s; reflexivity.
Qed.

Lemma float_lt_not_nan (a b : float) :
  float_lt a b = true -> float_is_nan a = false /\ float_is_nan b = false.
Proof.
  unfold float_lt. destruct a, b; cbn; intros H; try discriminate H;
    split; reflexivity.
Qed.

(** ** Runs of [StrictStatTester.is_stat] in terms of the two p-values *)

(** When both p-values are computed, the run returns, makes the two
    collaborator calls in order and prints the diagnostic of its case. *)
Lemma strict_of_pvalues (st : Stattools) (x : series) (threshold : float)
  (verbose : Z) (pa pk : float) :
  outcome (run_pvalue st (Some ADF) x) = Ok pa ->
  outcome (run_pvalue st (Some KPSS) x) = Ok pk ->
  run_strict_is_stat st x threshold verbose
  = ([EvAdfuller x; EvKpss x (NlagsStr "auto")]
     ++ map EvPrint
          (if verbose >? 0
           then spec_diagnostic
                  (spec_outcome_class (float_lt pa threshold)
                     (float_ge pk threshold))
           else []),
     Ok (float_lt pa threshold && float_ge pk threshold))%list.
Proof.
  intros Ha Hk. unfold_runs.
  adf_cases st x; [|discriminate Ha]. kpss_cases st x; [|discriminate Hk].
  injection Ha as ->. injection Hk as ->.
  destruct (float_lt pa threshold), (float_ge pk threshold); cbn;
    destruct (verbose >? 0); reflexivity.
Qed.

(** A run that returns has computed both p-values. *)
Lemma strict_ok_inv (st : Stattools) (x : series) (threshold : float)
  (verbose : Z) (b : bool) :
  outcome (run_strict_is_stat st x threshold verbose) = Ok b ->
  exists pa pk,
    outcome (run_pvalue st (Some ADF) x) = Ok pa
    /\ outcome (run_pvalue st (Some KPSS) x) = Ok pk.
Proof.
  unfold_runs. adf_cases st x; [|intros H; discriminate H].
  kpss_cases st x.
  - intros _. exists pa, pk. split; reflexivity.
  - destruct (float_lt pa threshold); intros H; discriminate H.
Qed.

(** A run that raises prints nothing. *)
Lemma strict_raise_silent (st : Stattools) (x : series) (threshold : float)
  (verbose : Z) (e : exn) :
  outcome (run_strict_is_stat st x threshold verbose) = Raise e ->
  printed (events (run_strict_is_stat st x threshold verbose)) = [].
Proof.
  unfold_runs. adf_cases st x; [|reflexivity].
  kpss_cases st x; [|reflexivity].
  destruct (float_lt pa threshold), (float_ge pk threshold); cbn;
    destruct (verbose >? 0); intros H; discriminate H.
Qed.

Lemma printed_map_EvPrint (lines : list string) :
  printed (map EvPrint lines) = lines.
Proof. induction lines as [| l ls IH]; cbn; [|rewrite IH]; reflexivity. Qed.

Lemma strict_printed_of_pvalues (st : Stattools) (x : series)
  (threshold : float) (verbose : Z) (pa pk : float) :
  outcome (run_pvalue st (Some ADF) x) = Ok pa ->
  outcome (run_pvalue st (Some KPSS) x) = Ok pk ->
  printed (events (run_strict_is_stat st x threshold verbose))
  = (if verbose >? 0
     then spec_diagnostic
            (spec_outcome_class (float_lt pa threshold)
               (float_ge pk threshold))
     else []).
Proof.
  intros Ha Hk. rewrite (strict_of_pvalues st x threshold verbose pa pk Ha Hk).
  cbn. apply printed_map_EvPrint.
Qed.

(** ** Failures of [StrictStatTester.is_stat] *)

(** X1. [StrictStatTester()] builds one "ADF" and one "KPSS" tester, so
    [StrictStatTester().is_stat] never raises the unknown-method exception
    of its own: whenever it raises, the exception is the one [adfuller]
    raised, or [adfuller] returned and it is the one [kpss] raised; and when
    both collaborators return, it returns a boolean. *)
Theorem strict_raises_only_collaborator_failures (st : Stattools)
  (x : series) (threshold : float) (verbose : Z) :
  StrictStatTester.__init__
  = ret (StrictStatTester.mk (StatTester.mk (PyStr "ADF"))
           (StatTester.mk (PyStr "KPSS")))
  /\ (forall e : exn,
         outcome (run_strict_is_stat st x threshold verbose) = Raise e ->
         adfuller st x = Raise e
         \/ ((exists r, adfuller st x = Ok r)
             /\ kpss st x (NlagsStr "auto") = Raise e))
  /\ (forall ra rk,
         adfuller st x = Ok ra -> kpss st x (NlagsStr "auto") = Ok rk ->
         exists b : bool,
           outcome (run_strict_is_stat st x threshold verbose) = Ok b).
Proof.
  split; [reflexivity|]. split.
  - intros e. unfold_runs. adf_cases st x.
    + kpss_cases st x.
      * destruct (float_lt pa threshold), (float_ge pk threshold); cbn;
          destruct (verbose >? 0); intros H; discriminate H.
      * destruct (float_lt pa threshold); cbn; intros H;
          injection H as ->; right; (split; [eexists|]); reflexivity.
    + intros H. injection H as ->. left. reflexivity.
  - intros ra rk Ha Hk. unfold_runs. rewrite Ha, Hk.
    destruct ra as [[[[[sa pa] la] na] ca] ia], rk as [[[sk pk] lk] ck].
    cbn.
    destruct (float_lt pa threshold), (float_ge pk threshold); cbn;
      destruct (verbose >? 0); eexists; reflexivity.
Qed.

(** When only [kpss] fails, the exception of the run is the one of
    [kpss]. *)
Lemma strict_raises_only_collaborator_failures_witness :
  adfuller (failing_stattools true false) sample_series = Raise kpss_failure
  \/ ((exists r, adfuller (failing_stattools true false) sample_series
                 = Ok r)
      /\ kpss (failing_stattools true false) sample_series (NlagsStr "auto")
         = Raise kpss_failure).
Proof.
  destruct (strict_raises_only_collaborator_failures
              (failing_stattools true false) sample_series float_0_05 1)
    as [_ [Hr _]].
  apply (Hr kpss_failure). reflexivity.
Defined.

(** ** What is called, and in which order *)

(** X2. A run of [StrictStatTester().is_stat] that returns has called
    [adfuller(x)] once, then [kpss(x, nlags="auto")] once, on the series it
    was given, and has printed at most one line, after both calls; it has
    printed nothing when it returns [True] or when [verbose <= 0]. *)
Theorem strict_success_trace (st : Stattools) (x : series)
  (threshold : float) (verbose : Z) (b : bool) :
  outcome (run_strict_is_stat st x threshold verbose) = Ok b ->
  exists lines : list string,
    events (run_strict_is_stat st x threshold verbose)
    = ([EvAdfuller x; EvKpss x (NlagsStr "auto")] ++ map EvPrint lines)%list
    /\ (List.length lines <= 1)%nat
    /\ (b = true -> lines = [])
    /\ (verbose <= 0 -> lines = []).
Proof.
  intros Hb.
  destruct (strict_ok_inv st x threshold verbose b Hb) as [pa [pk [Ha Hk]]].
  rewrite (strict_of_pvalues st x threshold verbose pa pk Ha Hk) in *.
  cbn in Hb. injection Hb as <-.
  eexists. split; [reflexivity|].
  destruct (Z.gtb_spec verbose 0) as [Hv | Hv];
    destruct (float_lt pa threshold), (float_ge pk threshold); cbn;
    repeat split; intros; try reflexivity; try discriminate; lia.
Qed.

(** ADF p-value 2^-6 and KPSS p-value 2^-6 at threshold 0.05: two calls,
    then one line. *)
Lemma strict_success_trace_witness :
  exists lines : list string,
    events (run_strict_is_stat (const_stattools (pow2 (-6)) (pow2 (-6)))
              sample_series float_0_05 1)
    = ([EvAdfuller sample_series; EvKpss sample_series (NlagsStr "auto")]
       ++ map EvPrint lines)%list
    /\ (List.length lines <= 1)%nat.
Proof.
  destruct (strict_success_trace (const_stattools (pow2 (-6)) (pow2 (-6)))
              sample_series float_0_05 1 false eq_refl)
    as [lines [He [Hl _]]].
  exists lines. split; assumption.
Defined.

Ltac method_cases m :=
  unfold run_is_stat, run_pvalue, run_null_hypothesis, StatTester.is_stat,
    StatTester.pvalue, StatTester.null_hypothesis, StatTester.__init__,
    call_adfuller, call_kpss;
  cbn;
  generalize (match m with
              | Some v => v
              | None => StatTester.default_method
              end);
  intros ?v;
  destruct (py_eq_str v "ADF") eqn:?Ea;
  [|destruct (py_eq_str v "KPSS") eqn:?Ek];
  rewrite ?raise_unknown_method_outcome;
  cbn.

(** X3. For every method, recognised or not, [is_stat] does what [pvalue]
    does and nothing more: the two have the same events, [is_stat] raises
    exactly the exceptions [pvalue] raises, and it returns a verdict
    whenever [pvalue] returns a p-value, whatever the threshold. *)
Theorem is_stat_follows_pvalue (st : Stattools) (m : option pyval)
  (x : series) (threshold : float) :
  events (run_is_stat st m x threshold) = events (run_pvalue st m x)
  /\ (forall e : exn,
         outcome (run_is_stat st m x threshold) = Raise e
         <-> outcome (run_pvalue st m x) = Raise e)
  /\ (forall p : float,
         outcome (run_pvalue st m x) = Ok p ->
         exists b : bool, outcome (run_is_stat st m x threshold) = Ok b).
Proof.
  method_cases m.
  - adf_cases st x; repeat split; intros; cbn in *; try congruence;
      eexists; reflexivity.
  - kpss_cases st x; repeat split; intros; cbn in *; try congruence;
      eexists; reflexivity.
  - repeat split; intros; cbn in *; congruence.
Qed.

(** [StatTester("KPSS")] with a failing [kpss]: [is_stat] raises the
    exception [pvalue] raises. *)
Lemma is_stat_follows_pvalue_witness :
  outcome (run_is_stat (failing_stattools true false) (Some KPSS)
             sample_series float_0_05) = Raise kpss_failure.
Proof.
  destruct (is_stat_follows_pvalue (failing_stattools true false)
              (Some KPSS) sample_series float_0_05) as [_ [Hr _]].
  apply (Hr kpss_failure). reflexivity.
Defined.

(** X4. A [StatTester] never prints and consults at most one collaborator
    per call of [is_stat]: an "ADF" tester never calls [kpss], a "KPSS"
    tester never calls [adfuller], and whatever the method the only calls
    possible are [adfuller(x)] and [kpss(x, nlags="auto")] on the series
    given. *)
Theorem stat_tester_single_collaborator (st : Stattools) (m : option pyval)
  (x : series) (threshold : float) :
  printed (events (run_is_stat st m x threshold)) = []
  /\ (List.length (events (run_is_stat st m x threshold)) <= 1)%nat
  /\ (events (run_is_stat st m x threshold) = []
      \/ events (run_is_stat st m x threshold) = [EvAdfuller x]
      \/ events (run_is_stat st m x threshold)
         = [EvKpss x (NlagsStr "auto")])
  /\ events (run_is_stat st (Some (PyStr "ADF")) x threshold)
     = [EvAdfuller x]
  /\ events (run_is_stat st (Some (PyStr "KPSS")) x threshold)
     = [EvKpss x (NlagsStr "auto")].
Proof.
  split; [|split; [|split; [|split]]].
  - method_cases m; [adf_cases st x | kpss_cases st x |]; reflexivity.
  - method_cases m; [adf_cases st x | kpss_cases st x |]; cbn; lia.
  - method_cases m; [adf_cases st x | kpss_cases st x |]; cbn; auto.
  - unfold_runs. adf_cases st x; reflexivity.
  - unfold_runs. kpss_cases st x; reflexivity.
Qed.

(** The verdict of [is_stat] once [pvalue] has returned [p]: one of the two
    comparisons. *)
Lemma is_stat_of_pvalue (st : Stattools) (m : option pyval) (x : series)
  (threshold p : float) :
  outcome (run_pvalue st m x) = Ok p ->
  outcome (run_is_stat st m x threshold) = Ok (float_lt p threshold)
  \/ outcome (run_is_stat st m x threshold) = Ok (float_ge p threshold).
Proof.
  method_cases m.
  - adf_cases st x; intros H; [|discriminate H]. injection H as ->.
    left. reflexivity.
  - kpss_cases st x; intros H; [|discriminate H]. injection H as ->.
    right. reflexivity.
  - intros H. discriminate H.
Qed.

Lemma is_stat_ADF_of_pvalue (st : Stattools) (x : series)
  (threshold p : float) :
  outcome (run_pvalue st (Some ADF) x) = Ok p ->
  outcome (run_is_stat st (Some ADF) x threshold)
  = Ok (float_lt p threshold).
Proof.
  intros H. rewrite is_stat_ADF_unfold.
  exact (outcome_bind_ret _ (fun q => float_lt q threshold) p H).
Qed.

Lemma is_stat_KPSS_of_pvalue (st : Stattools) (x : series)
  (threshold p : float) :
  outcome (run_pvalue st (Some KPSS) x) = Ok p ->
  outcome (run_is_stat st (Some KPSS) x threshold)
  = Ok (float_ge p threshold).
Proof.
  intros H. rewrite is_stat_KPSS_unfold.
  exact (outcome_bind_ret _ (fun q => float_ge q threshold) p H).
Qed.

(** ** NaN *)

(** X5. When the collaborator returns a NaN p-value, or the threshold is
    NaN, [is_stat] returns [False], for the "ADF" tester and for the "KPSS"
    tester alike: both comparisons are false on NaN. *)
Theorem nan_verdict_is_false (st : Stattools) (m : option pyval)
  (x : series) (threshold p : float) :
  outcome (run_pvalue st m x) = Ok p ->
  float_is_nan p = true \/ float_is_nan threshold = true ->
  outcome (run_is_stat st m x threshold) = Ok false.
Proof.
  intros Hp Hnan.
  destruct (float_nan_compare p threshold Hnan) as [Hlt Hge].
  destruct (is_stat_of_pvalue st m x threshold p Hp) as [H | H];
    rewrite H; [rewrite Hlt | rewrite Hge]; reflexivity.
Qed.

(** A "KPSS" tester whose collaborator returns NaN. *)
Lemma nan_verdict_is_false_witness :
  outcome (run_is_stat (const_stattools (pow2 (-6)) S754_nan) (Some KPSS)
             sample_series float_0_05) = Ok false.
Proof.
  apply (nan_verdict_is_false (const_stattools (pow2 (-6)) S754_nan)
           (Some KPSS) sample_series float_0_05 S754_nan).
  - reflexivity.
  - left. reflexivity.
Defined.

(** X6. When one of the two p-values or the threshold is NaN,
    [StrictStatTester().is_stat] returns [False]; with a NaN threshold, or
    with two NaN p-values, it prints nothing, whatever [verbose]. *)
Theorem strict_nan_is_false (st : Stattools) (x : series)
  (threshold : float) (verbose : Z) (pa pk : float) :
  outcome (run_pvalue st (Some ADF) x) = Ok pa ->
  outcome (run_pvalue st (Some KPSS) x) = Ok pk ->
  (float_is_nan pa = true \/ float_is_nan pk = true
   \/ float_is_nan threshold = true ->
   outcome (run_strict_is_stat st x threshold verbose) = Ok false)
  /\ (float_is_nan threshold = true
      \/ (float_is_nan pa = true /\ float_is_nan pk = true) ->
      printed (events (run_strict_is_stat st x threshold verbose)) = []).
Proof.
  intros Ha Hk. split; intros Hnan.
  - rewrite (strict_of_pvalues st x threshold verbose pa pk Ha Hk). cbn.
    f_equal. apply andb_false_iff.
    destruct Hnan as [H | [H | H]].
    + left. apply (float_nan_compare pa threshold). left. exact H.
    + right. apply (float_nan_compare pk threshold). left. exact H.
    + left. apply (float_nan_compare pa threshold). right. exact H.
  - rewrite (strict_printed_of_pvalues st x threshold verbose pa pk Ha Hk).
    assert (Hv : float_lt pa threshold = false
                 /\ float_ge pk threshold = false).
    { destruct Hnan as [H | [H1 H2]]; split;
        first [ apply (float_nan_compare pa threshold)
              | apply (float_nan_compare pk threshold) ]; auto. }
    destruct Hv as [-> ->]. cbn. destruct (verbose >? 0); reflexivity.
Qed.

(** A NaN threshold with [verbose = 1]: [False], nothing printed. *)
Lemma strict_nan_is_false_witness :
  outcome (run_strict_is_stat (const_stattools (pow2 (-6)) (pow2 (-4)))
             sample_series S754_nan 1) = Ok false
  /\ printed (events (run_strict_is_stat
                        (const_stattools (pow2 (-6)) (pow2 (-4)))
                        sample_series S754_nan 1)) = [].
Proof.
  destruct (strict_nan_is_false (const_stattools (pow2 (-6)) (pow2 (-4)))
              sample_series S754_nan 1 (pow2 (-6)) (pow2 (-4))
              eq_refl eq_refl) as [Hr Hp].
  split.
  - apply Hr. right. right. reflexivity.
  - apply Hp. left. reflexivity.
Defined.

(** ** The thresholds at which a series is judged strictly stationary *)

(** The result is [True] when [pa < threshold <= pk]. *)
Lemma strict_true_between (st : Stattools) (x : series) (threshold : float)
  (verbose : Z) (pa pk : float) :
  outcome (run_pvalue st (Some ADF) x) = Ok pa ->
  outcome (run_pvalue st (Some KPSS) x) = Ok pk ->
  (outcome (run_strict_is_stat st x threshold verbose) = Ok true
   <-> float_lt pa threshold = true /\ float_le threshold pk = true).
Proof.
  intros Ha Hk.
  rewrite (strict_of_pvalues st x threshold verbose pa pk Ha Hk). cbn.
  rewrite float_ge_le. rewrite <- andb_true_iff.
  split; intros H; [injection H as H | f_equal]; exact H.
Qed.

(** X7. [StrictStatTester().is_stat] returns [True] exactly when the
    threshold lies strictly above the ADF p-value and at or below the KPSS
    p-value. Hence it can return [True] only if the ADF p-value is strictly
    below the KPSS p-value, and in that case it does return [True] when the
    threshold is the KPSS p-value. *)
Theorem strict_true_iff_between (st : Stattools) (x : series)
  (threshold : float) (verbose : Z) (pa pk : float) :
  outcome (run_pvalue st (Some ADF) x) = Ok pa ->
  outcome (run_pvalue st (Some KPSS) x) = Ok pk ->
  (outcome (run_strict_is_stat st x threshold verbose) = Ok true
   <-> float_lt pa threshold = true /\ float_le threshold pk = true)
  /\ (outcome (run_strict_is_stat st x threshold verbose) = Ok true ->
      float_lt pa pk = true)
  /\ (float_lt pa pk = true ->
      outcome (run_strict_is_stat st x pk verbose) = Ok true).
Proof.
  intros Ha Hk.
  pose proof (strict_true_between st x threshold verbose pa pk Ha Hk)
    as Hiff.
  split; [exact Hiff|]. split.
  - intros H. apply Hiff in H as [H1 H2].
    exact (float_lt_le_trans _ _ _ H1 H2).
  - intros Hlt.
    rewrite (strict_of_pvalues st x pk verbose pa pk Ha Hk). cbn.
    rewrite Hlt. cbn. f_equal. apply float_ge_refl.
    apply (float_lt_not_nan pa pk Hlt).
Qed.

(** ADF p-value 2^-6, KPSS p-value 2^-4: [True] at the threshold 2^-4. *)
Lemma strict_true_iff_between_witness :
  outcome (run_strict_is_stat (const_stattools (pow2 (-6)) (pow2 (-4)))
             sample_series (pow2 (-4)) 1) = Ok true.
Proof.
  destruct (strict_true_iff_between
              (const_stattools (pow2 (-6)) (pow2 (-4))) sample_series
              float_0_05 1 (pow2 (-6)) (pow2 (-4)) eq_refl eq_refl)
    as [_ [_ Hex]].
  apply Hex. reflexivity.
Defined.

(** X8. For a fixed series, the thresholds at which
    [StrictStatTester().is_stat] returns [True] form an interval: when it
    returns [True] at two thresholds, it returns [True] at every threshold
    between them. *)
Theorem strict_true_convex (st : Stattools) (x : series) (verbose : Z)
  (t t' t'' : float) :
  float_le t t' = true -> float_le t' t'' = true ->
  outcome (run_strict_is_stat st x t verbose) = Ok true ->
  outcome (run_strict_is_stat st x t'' verbose) = Ok true ->
  outcome (run_strict_is_stat st x t' verbose) = Ok true.
Proof.
  intros H1 H2 Ht Ht''.
  destruct (strict_ok_inv st x t verbose true Ht) as [pa [pk [Ha Hk]]].
  apply (strict_true_between st x t verbose pa pk Ha Hk) in Ht as [Hlo _].
  apply (strict_true_between st x t'' verbose pa pk Ha Hk) in Ht''
    as [_ Hhi].
  apply (strict_true_between st x t' verbose pa pk Ha Hk). split.
  - exact (float_lt_le_trans _ _ _ Hlo H1).
  - exact (float_le_trans _ _ _ H2 Hhi).
Qed.

(** ADF p-value 2^-6, KPSS p-value 2^-3: [True] at 2^-5 and at 2^-3, hence
    at 2^-4. *)
Lemma strict_true_convex_witness :
  outcome (run_strict_is_stat (const_stattools (pow2 (-6)) (pow2 (-3)))
             sample_series (pow2 (-4)) 1) = Ok true.
Proof.
  apply (strict_true_convex (const_stattools (pow2 (-6)) (pow2 (-3)))
           sample_series 1 (pow2 (-5)) (pow2 (-4)) (pow2 (-3)));
    reflexivity.
Defined.

(** What a printed diagnostic tells about the two comparisons. *)
Lemma strict_printed_inv (st : Stattools) (x : series) (threshold : float)
  (verbose : Z) (line : string) :
  printed (events (run_strict_is_stat st x threshold verbose)) = [line] ->
  exists pa pk,
    outcome (run_pvalue st (Some ADF) x) = Ok pa
    /\ outcome (run_pvalue st (Some KPSS) x) = Ok pk
    /\ (verbose >? 0) = true
    /\ ((line = StrictStatTester.msg_detrend
         /\ float_lt pa threshold = false /\ float_ge pk threshold = true)
        \/ (line = StrictStatTester.msg_difference
            /\ float_lt pa threshold = true
            /\ float_ge pk threshold = false)).
Proof.
  intros Hp.
  destruct (outcome (run_strict_is_stat st x threshold verbose))
    as [b | e] eqn:Ho.
  - destruct (strict_ok_inv st x threshold verbose b Ho)
      as [pa [pk [Ha Hk]]].
    exists pa, pk. split; [exact Ha|]. split; [exact Hk|].
    rewrite (strict_printed_of_pvalues st x threshold verbose pa pk Ha Hk)
      in Hp.
    destruct (verbose >? 0); [|discriminate Hp]. split; [reflexivity|].
    destruct (float_lt pa threshold), (float_ge pk threshold); cbn in Hp;
      try discriminate Hp; injection Hp as <-; [right | left];
      repeat split; reflexivity.
  - rewrite (strict_raise_silent st x threshold verbose e Ho) in Hp.
    discriminate Hp.
Qed.

(** X9. For a fixed series and [verbose], the diagnostics are stable in one
    direction each: when "Series is difference stationary" is printed at a
    threshold, it is printed at every higher threshold; when the detrend
    message is printed at a threshold, it is printed at every lower
    threshold. *)
Theorem diagnostic_persists (st : Stattools) (x : series) (verbose : Z)
  (t t' : float) :
  float_le t t' = true ->
  (printed (events (run_strict_is_stat st x t verbose))
   = [StrictStatTester.msg_difference] ->
   printed (events (run_strict_is_stat st x t' verbose))
   = [StrictStatTester.msg_difference])
  /\ (printed (events (run_strict_is_stat st x t' verbose))
      = [StrictStatTester.msg_detrend] ->
      printed (events (run_strict_is_stat st x t verbose))
      = [StrictStatTester.msg_detrend]).
Proof.
  intros Hle. split; intros Hp;
    apply strict_printed_inv in Hp
      as [pa [pk [Ha [Hk [Hv [[Hm [H1 H2]] | [Hm [H1 H2]]]]]]]];
    try discriminate Hm.
  - rewrite (strict_printed_of_pvalues st x t' verbose pa pk Ha Hk), Hv.
    rewrite (float_lt_le_trans _ _ _ H1 Hle).
    rewrite (float_ge_false_le _ _ _ H2 Hle). reflexivity.
  - rewrite (strict_printed_of_pvalues st x t verbose pa pk Ha Hk), Hv.
    rewrite (float_ge_true_le _ _ _ H2 Hle).
    destruct (float_lt pa t) eqn:E; [|reflexivity].
    rewrite (float_lt_le_trans _ _ _ E Hle) in H1. discriminate H1.
Qed.

(** ADF p-value 2^-6, KPSS p-value 2^-6: the difference message at the
    threshold 0.05, hence at 2^-2. *)
Lemma diagnostic_persists_witness :
  printed (events (run_strict_is_stat
                     (const_stattools (pow2 (-6)) (pow2 (-6)))
                     sample_series (pow2 (-2)) 1))
  = ["Series is difference stationary"].
Proof.
  destruct (diagnostic_persists (const_stattools (pow2 (-6)) (pow2 (-6)))
              sample_series 1 float_0_05 (pow2 (-2)) eq_refl) as [Hup _].
  apply Hup. reflexivity.
Defined.

(** ** Thresholds outside (0, 1] *)

Lemma float_lt_le_absurd (a b : float) :
  float_lt a b = true -> float_le b a = true -> False.
Proof.
  intros Hlt Hle. apply float_lt_not_ge in Hlt.
  rewrite float_ge_le, Hle in Hlt. discriminate Hlt.
Qed.

(** X10. When both p-values are probabilities ([0.0 <= p <= 1.0]): at a
    threshold at or below [0.0] the ADF verdict is [False] and the KPSS
    verdict is [True], so the run reports the detrend case; at a threshold
    above [1.0] the ADF verdict is [True] and the KPSS verdict is [False],
    so the run reports the difference case; hence
    [StrictStatTester().is_stat] returns [True] only at thresholds in
    (0, 1]. *)
Theorem degenerate_thresholds (st : Stattools) (x : series)
  (threshold : float) (verbose : Z) (pa pk : float) :
  outcome (run_pvalue st (Some ADF) x) = Ok pa ->
  outcome (run_pvalue st (Some KPSS) x) = Ok pk ->
  is_probability pa = true -> is_probability pk = true ->
  (float_le threshold float_zero = true ->
   outcome (run_is_stat st (Some ADF) x threshold) = Ok false
   /\ outcome (run_is_stat st (Some KPSS) x threshold) = Ok true
   /\ printed (events (run_strict_is_stat st x threshold verbose))
      = (if verbose >? 0 then [StrictStatTester.msg_detrend] else []))
  /\ (float_lt float_one threshold = true ->
      outcome (run_is_stat st (Some ADF) x threshold) = Ok true
      /\ outcome (run_is_stat st (Some KPSS) x threshold) = Ok false
      /\ printed (events (run_strict_is_stat st x threshold verbose))
         = (if verbose >? 0 then [StrictStatTester.msg_difference]
            else []))
  /\ (outcome (run_strict_is_stat st x threshold verbose) = Ok true ->
      float_lt float_zero threshold = true
      /\ float_le threshold float_one = true).
Proof.
  intros Ha Hk Hpa Hpk.
  unfold is_probability in Hpa, Hpk.
  apply andb_true_iff in Hpa as [Ha0 Ha1].
  apply andb_true_iff in Hpk as [Hk0 Hk1].
  rewrite (is_stat_ADF_of_pvalue st x threshold pa Ha).
  rewrite (is_stat_KPSS_of_pvalue st x threshold pk Hk).
  rewrite (strict_printed_of_pvalues st x threshold verbose pa pk Ha Hk).
  split; [|split].
  - intros Ht.
    assert (H1 : float_lt pa threshold = false).
    { destruct (float_lt pa threshold) eqn:E; [|reflexivity].
      destruct (float_lt_le_absurd pa float_zero
                  (float_lt_le_trans _ _ _ E Ht) Ha0). }
    assert (H2 : float_ge pk threshold = true).
    { rewrite float_ge_le. exact (float_le_trans _ _ _ Ht Hk0). }
    rewrite H1, H2. repeat split; reflexivity.
  - intros Ht.
    assert (H1 : float_lt pa threshold = true).
    { exact (float_le_lt_trans _ _ _ Ha1 Ht). }
    assert (H2 : float_ge pk threshold = false).
    { rewrite float_ge_le.
      destruct (float_le threshold pk) eqn:E; [|reflexivity].
      destruct (float_lt_le_absurd float_one threshold Ht
                  (float_le_trans _ _ _ E Hk1)). }
    rewrite H1, H2. repeat split; reflexivity.
  - intros Ht.
    apply (strict_true_between st x threshold verbose pa pk Ha Hk) in Ht
      as [Hlo Hhi].
    split.
    + exact (float_le_lt_trans _ _ _ Ha0 Hlo).
    + exact (float_le_trans _ _ _ Hhi Hk1).
Qed.

(** p-values 2^-6 and 2^-4 at the threshold [0.0]: ADF says [False], KPSS
    says [True], and the detrend message is printed. *)
Lemma degenerate_thresholds_witness :
  outcome (run_is_stat (const_stattools (pow2 (-6)) (pow2 (-4))) (Some ADF)
             sample_series float_zero) = Ok false
  /\ outcome (run_is_stat (const_stattools (pow2 (-6)) (pow2 (-4)))
                (Some KPSS) sample_series float_zero) = Ok true
  /\ printed (events (run_strict_is_stat
                        (const_stattools (pow2 (-6)) (pow2 (-4)))
                        sample_series float_zero 1))
     = ["Trend needs to be removed to make series strict stationary"].
Proof.
  destruct (degenerate_thresholds (const_stattools (pow2 (-6)) (pow2 (-4)))
              sample_series float_zero 1 (pow2 (-6)) (pow2 (-4))
              eq_refl eq_refl eq_refl eq_refl) as [Hz _].
  apply Hz. reflexivity.
Defined.

(** ** Equal p-values *)

(** X11. On the same p-value and threshold, neither NaN, the two directions
    give opposite verdicts: when [adfuller] and [kpss] return the same
    p-value, the "KPSS" verdict is the negation of the "ADF" verdict,
    [StrictStatTester().is_stat] returns [False], and with [verbose > 0] it
    prints one of its two messages. *)
Theorem equal_pvalues_disagree (st : Stattools) (x : series)
  (threshold : float) (verbose : Z) (p : float) :
  outcome (run_pvalue st (Some ADF) x) = Ok p ->
  outcome (run_pvalue st (Some KPSS) x) = Ok p ->
  float_is_nan p = false -> float_is_nan threshold = false ->
  (exists b : bool,
      outcome (run_is_stat st (Some ADF) x threshold) = Ok b
      /\ outcome (run_is_stat st (Some KPSS) x threshold) = Ok (negb b))
  /\ outcome (run_strict_is_stat st x threshold verbose) = Ok false
  /\ (verbose > 0 ->
      printed (events (run_strict_is_stat st x threshold verbose))
      = [StrictStatTester.msg_detrend]
      \/ printed (events (run_strict_is_stat st x threshold verbose))
         = [StrictStatTester.msg_difference]).
Proof.
  intros Ha Hk Hp Ht.
  rewrite (is_stat_ADF_of_pvalue st x threshold p Ha).
  rewrite (is_stat_KPSS_of_pvalue st x threshold p Hk).
  rewrite (strict_of_pvalues st x threshold verbose p p Ha Hk). cbn.
  rewrite printed_map_EvPrint.
  rewrite (float_ge_negb_lt p threshold Hp Ht).
  split; [eexists; split; reflexivity|].
  destruct (Z.gtb_spec verbose 0) as [Hv | Hv];
    destruct (float_lt p threshold); cbn; split; try reflexivity;
    intros; try lia; auto.
Qed.

(** Both collaborators return 2^-4, threshold 0.05, [verbose = 1]. *)
Lemma equal_pvalues_disagree_witness :
  outcome (run_strict_is_stat (const_stattools (pow2 (-4)) (pow2 (-4)))
             sample_series float_0_05 1) = Ok false.
Proof.
  destruct (equal_pvalues_disagree (const_stattools (pow2 (-4)) (pow2 (-4)))
              sample_series float_0_05 1 (pow2 (-4))
              eq_refl eq_refl eq_refl eq_refl) as [_ [Hr _]].
  exact Hr.
Defined.

(** ** StrictStatTester.null_hypothesis *)

(** X12. [StrictStatTester.null_hypothesis] returns its label for every
    object, without raising and without any effect, and the label is not a
    value of [StatTester.null_hypothesis]: for no method, recognised or not,
    do the two properties have the same outcome. *)
Theorem strict_null_hypothesis_label :
  run_strict_null_hypothesis = ret "unit-root and not trend-stationary"
  /\ (forall self : StrictStatTester.t,
         StrictStatTester.null_hypothesis self
         = ret "unit-root and not trend-stationary")
  /\ (forall m : option pyval,
         outcome (run_null_hypothesis m)
         <> outcome run_strict_null_hypothesis).
Proof.
  split; [reflexivity|]. split; [reflexivity|].
  intros m. method_cases m; intros H; discriminate H.
Qed.
